(** * The FastAPI backend of [main.py]: contact submission and project listing

    A shallow embedding of [src/main.py].  Python values are an inductive
    type, dictionaries are finite maps, and the handlers run in a small
    monad that threads the log of gateway calls and propagates exceptions,
    so that [try: ... except Exception: ...] is a combinator of the model. *)

From Stdlib Require Import ZArith.
From stdpp Require Import base option list strings pretty gmap.

Open Scope string_scope.
Set Warnings "-register-all".

(** ** Python values *)

(** The values a JSON body or a stored document is made of.  [PyObj] stands
    for any other object the store can hand back (a float, a datetime, an
    ObjectId): the code only ever asks for its truth value and hands it to
    pydantic, and it has no [get] attribute. *)
Inductive PyVal : Type :=
  | PyNone
  | PyBool (b : bool)
  | PyInt (z : Z)
  | PyStr (s : string)
  | PyList (l : list PyVal)
  | PyDict (d : gmap string PyVal)
  | PyObj (truth : bool) (repr : string).

(** [bool(v)]: what [not v] and [v or w] test. *)
Definition truthy (v : PyVal) : bool :=
  match v with
  | PyNone => false
  | PyBool b => b
  | PyInt z => negb (z =? 0)%Z
  | PyStr s => negb (String.eqb s "")
  | PyList l => match l with [] => false | _ => true end
  | PyDict d => negb (bool_decide (d = ∅))
  | PyObj t _ => t
  end.

(** ** Strings *)

(** A Python [str] is held as its UTF-8 encoding, which is also how the
    literals of this file are read.  A character is one byte that is not a
    continuation byte (10xxxxxx), followed by its continuation bytes. *)
Definition is_continuation (c : Ascii.ascii) : bool :=
  (128 <=? Ascii.nat_of_ascii c)%nat && (Ascii.nat_of_ascii c <? 192)%nat.

(** [len(s)]: the number of characters. *)
Fixpoint py_len (s : string) : nat :=
  match s with
  | EmptyString => 0
  | String c s' => if is_continuation c then py_len s' else S (py_len s')
  end.

(** [s[:n]]: the first [n] characters, each with all its bytes. *)
Fixpoint str_take (n : nat) (s : string) : string :=
  match s with
  | EmptyString => EmptyString
  | String c s' =>
      if is_continuation c then String c (str_take n s')
      else match n with
           | 0 => EmptyString
           | S n' => String c (str_take n' s')
           end
  end.

(** ** Exceptions *)

(** Every exception of the model derives from [Exception], the class the two
    handlers of [main.py] name.  [HTTPException] is FastAPI's; [PyError] is
    any other one, with its class name and its text. *)
Inductive PyExc : Type :=
  | HTTPException (status_code : nat) (detail : string)
  | PyError (cls : string) (text : string).

(** [str(e)].  Starlette prints an [HTTPException] as ["<code>: <detail>"]. *)
Definition py_str (e : PyExc) : string :=
  match e with
  | HTTPException c d => pretty c +:+ ": " +:+ d
  | PyError _ t => t
  end.

Definition AttributeError : PyExc :=
  PyError "AttributeError" "object has no attribute 'get'".
Definition ValidationError (model : string) : PyExc :=
  PyError "ValidationError" ("validation error for " +:+ model).

(** The outcome of evaluating an expression: a value or a raised exception. *)
Inductive Outcome (A : Type) : Type :=
  | Return (a : A)
  | Raise (e : PyExc).
Arguments Return {A} a.
Arguments Raise {A} e.

Global Instance Outcome_ret : MRet Outcome := λ A a, Return a.
Global Instance Outcome_bind : MBind Outcome := λ A B f o,
  match o with
  | Return a => f a
  | Raise e => Raise e
  end.

(** ** Models (lines 71-80) *)

Record ContactMessageIn : Type := {
  name : string;
  email : string;
  message : string;
}.

Record Project : Type := {
  title : string;
  location : option string;
  image : option string;
}.

(** ** The gateway and the handler monad *)

(** [database.create_document] and [database.get_documents] are the two calls
    [main.py] makes to the store.  The log records them in order. *)
Inductive Call : Type :=
  | CallCreate (collection : string) (doc : ContactMessageIn)
  | CallGet (collection : string).

(** What the store answers, given the calls made before: an id or a list of
    documents, or an exception. *)
Record Gateway : Type := {
  gw_create : list Call → string → ContactMessageIn → Outcome string;
  gw_fetch : list Call → string → Outcome (list PyVal);
}.

(** A handler reads and extends the log and ends in a value or an exception. *)
Definition M (A : Type) : Type := list Call → Outcome A * list Call.

Global Instance M_ret : MRet M := λ A a log, (Return a, log).
Global Instance M_bind : MBind M := λ A B f m log,
  match m log with
  | (Return a, log') => f a log'
  | (Raise e, log') => (Raise e, log')
  end.

(** An expression with no gateway call. *)
Definition lift {A} (o : Outcome A) : M A := λ log, (o, log).

Definition raise {A} (e : PyExc) : M A := lift (Raise e).

(** [try: body except Exception as e: handler(e)]. *)
Definition try_except {A} (body : M A) (handler : PyExc → M A) : M A :=
  λ log,
    match body log with
    | (Return a, log') => (Return a, log')
    | (Raise e, log') => handler e log'
    end.

(** What FastAPI sends back.  The 422 it builds from a request that fails
    validation and the plain 500 of an uncaught exception carry no data the
    handlers produce. *)
Inductive Response : Type :=
  | JSONResponse (status : nat) (content : PyVal)
  | RequestValidationError
  | InternalServerError.

Definition status_code_of (r : Response) : nat :=
  match r with
  | JSONResponse s _ => s
  | RequestValidationError => 422
  | InternalServerError => 500
  end.

(** ** Static data (lines 98-119) *)

Definition DEFAULT_PROJECTS : list (gmap string PyVal) := [
  {[ "title" := PyStr "Courtyard Residence";
     "location" := PyStr "Lisbon, Portugal";
     "image" := PyStr "https://images.unsplash.com/photo-1501045661006-fcebe0257c3f?q=80&w=1600&auto=format&fit=crop" ]};
  {[ "title" := PyStr "Gallery Pavilion";
     "location" := PyStr "Copenhagen, Denmark";
     "image" := PyStr "https://images.unsplash.com/photo-1529429612777-95c0d0f2ad32?q=80&w=1600&auto=format&fit=crop" ]};
  {[ "title" := PyStr "Cliff House";
     "location" := PyStr "Big Sur, USA";
     "image" := PyStr "https://images.unsplash.com/photo-1519710164239-da123dc03ef4?q=80&w=1600&auto=format&fit=crop" ]};
  {[ "title" := PyStr "Cultural Center";
     "location" := PyStr "Kyoto, Japan";
     "image" := PyStr "https://images.unsplash.com/photo-1518770660439-4636190af475?q=80&w=1600&auto=format&fit=crop" ]}
].

(** [d.get(key)]: only a dictionary has the attribute; a missing key gives
    [None]. *)
Definition py_get (d : PyVal) (key : string) : Outcome PyVal :=
  match d with
  | PyDict m => Return (default PyNone (m !! key))
  | _ => Raise AttributeError
  end.

(** [a or b]: [b] is evaluated only when [a] is falsy, and is then the value
    of the expression whatever its own truth value. *)
Definition py_or (a : PyVal) (b : Outcome PyVal) : Outcome PyVal :=
  if truthy a then Return a else b.

(** [[f(x) for x in l]]. *)
Fixpoint list_comp {A B} (f : A → Outcome B) (l : list A) : Outcome (list B) :=
  match l with
  | [] => Return []
  | x :: l' => y ← f x; ys ← list_comp f l'; mret (y :: ys)
  end.

Section Backend.

(** pydantic's conversion of a value that is neither a string, [None], a
    list nor a dictionary to [str]: version 1 prints numbers, version 2
    refuses everything.  The development holds for either. *)
Variable lax_str : PyVal → option string.

(** The [email-validator] package behind [EmailStr]: [None] for a
    syntactically invalid address, the normalised address otherwise. *)
Variable validate_email : string → option string.

Variable gw : Gateway.

(** *** pydantic field validation *)

Definition validate_str (model : string) (v : PyVal) : Outcome string :=
  match v with
  | PyStr s => Return s
  | PyNone | PyList _ | PyDict _ => Raise (ValidationError model)
  | PyBool _ | PyInt _ | PyObj _ _ =>
      match lax_str v with
      | Some s => Return s
      | None => Raise (ValidationError model)
      end
  end.

(** [Optional[str]]. *)
Definition validate_optional_str (model : string) (v : PyVal)
    : Outcome (option string) :=
  match v with
  | PyNone => Return None
  | _ => s ← validate_str model v; mret (Some s)
  end.

(** [str = Field(..., min_length=lo, max_length=hi)]: the bounds are on the
    number of characters. *)
Definition validate_constr (model : string) (lo hi : nat) (v : PyVal)
    : Outcome string :=
  s ← validate_str model v;
  if (lo <=? py_len s)%nat && (py_len s <=? hi)%nat
  then Return s else Raise (ValidationError model).

(** [EmailStr]. *)
Definition validate_EmailStr (model : string) (v : PyVal) : Outcome string :=
  s ← validate_str model v;
  match validate_email s with
  | Some e => Return e
  | None => Raise (ValidationError model)
  end.

(** A field with no default, and one whose default is [None]. *)
Definition required {A} (model : string) (kwargs : gmap string PyVal)
    (key : string) (validate : PyVal → Outcome A) : Outcome A :=
  match kwargs !! key with
  | Some v => validate v
  | None => Raise (ValidationError model)
  end.

Definition optional {A} (kwargs : gmap string PyVal) (key : string)
    (validate : PyVal → Outcome (option A)) : Outcome (option A) :=
  match kwargs !! key with
  | Some v => validate v
  | None => Return None
  end.

(** The constructor of [ContactMessageIn] on keyword arguments (lines
    71-74). *)
Definition ContactMessageIn__init__ (kwargs : gmap string PyVal)
    : Outcome ContactMessageIn :=
  let model := "ContactMessageIn" in
  n ← required model kwargs "name" (validate_constr model 2 100);
  e ← required model kwargs "email" (validate_EmailStr model);
  m ← required model kwargs "message" (validate_constr model 10 5000);
  mret {| name := n; email := e; message := m |}.

(** The constructor of [Project] on keyword arguments (lines 77-80). *)
Definition Project__init__ (kwargs : gmap string PyVal) : Outcome Project :=
  let model := "Project" in
  t ← required model kwargs "title" (validate_str model);
  l ← optional kwargs "location" (validate_optional_str model);
  i ← optional kwargs "image" (validate_optional_str model);
  mret {| title := t; location := l; image := i |}.

(** *** The gateway calls (module [database]) *)

Definition create_document (collection : string) (doc : ContactMessageIn)
    : M string :=
  λ log, (gw_create gw log collection doc, (log ++ [CallCreate collection doc])%list).

Definition get_documents (collection : string) : M (list PyVal) :=
  λ log, (gw_fetch gw log collection, (log ++ [CallGet collection])%list).

(** *** Contact (lines 86-92) *)

Definition submit_contact (msg : ContactMessageIn) : M PyVal :=
  try_except
    (doc_id ← create_document "contact_messages" msg;
     mret (PyDict {[ "status" := PyStr "ok"; "id" := PyStr doc_id ]}))
    (λ e, raise (HTTPException 500 (py_str e))).

(** *** Projects (lines 122-139) *)

(** The list comprehension of lines 127 and 139: a [Project] built from
    each dictionary of [DEFAULT_PROJECTS], unpacked as keyword arguments. *)
Definition fallback : Outcome (list Project) :=
  list_comp Project__init__ DEFAULT_PROJECTS.

(** The expression appended in the loop, lines 131-135. *)
Definition project_of_doc (d : PyVal) : Outcome Project :=
  t ← (a ← py_get d "title";
       py_or a (b ← py_get d "name"; py_or b (Return (PyStr "Untitled"))));
  l ← py_get d "location";
  i ← (a ← py_get d "image"; py_or a (py_get d "image_url"));
  Project__init__ {[ "title" := t; "location" := l; "image" := i ]}.

(** [for d in docs: items.append(...)], lines 129-135, from the [items]
    built so far. *)
Fixpoint for_docs (docs : list PyVal) (items : list Project)
    : Outcome (list Project) :=
  match docs with
  | [] => Return items
  | d :: docs' => p ← project_of_doc d; for_docs docs' (items ++ [p])%list
  end.

Definition list_projects : M (list Project) :=
  try_except
    (docs ← get_documents "projects";
     if negb (truthy (PyList docs)) then lift fallback
     else lift (for_docs docs []))
    (λ _, lift fallback).

(** *** The routes, as FastAPI serves them *)

(** A handler's dictionary is sent with status 200, an [HTTPException] with
    its own status and its detail, anything else as a plain 500. *)
Definition respond (handler : M PyVal) : list Call → Response * list Call :=
  λ log,
    match handler log with
    | (Return v, log') => (JSONResponse 200 v, log')
    | (Raise (HTTPException c d), log') =>
        (JSONResponse c (PyDict {[ "detail" := PyStr d ]}), log')
    | (Raise (PyError _ _), log') => (InternalServerError, log')
    end.

(** The body parameter [msg: ContactMessageIn]: the JSON body has to be an
    object that validates as the model. *)
Definition request_body (body : PyVal) : Outcome ContactMessageIn :=
  match body with
  | PyDict kwargs => ContactMessageIn__init__ kwargs
  | _ => Raise (ValidationError "ContactMessageIn")
  end.

(** [POST /api/contact]: the handler runs only on a validated body. *)
Definition post_api_contact (body : PyVal) : list Call → Response * list Call :=
  λ log,
    match request_body body with
    | Return msg => respond (submit_contact msg) log
    | Raise _ => (RequestValidationError, log)
    end.

(** [response_model=List[Project]]: every field is serialised, an absent
    one as [null]. *)
Definition Project_json (p : Project) : PyVal :=
  PyDict {[ "title" := PyStr (title p);
            "location" := from_option PyStr PyNone (location p);
            "image" := from_option PyStr PyNone (image p) ]}.

(** [GET /api/projects]. *)
Definition get_api_projects : list Call → Response * list Call :=
  respond (ps ← list_projects; mret (PyList (Project_json <$> ps))).

End Backend.

(** ** Instances used in the examples *)

(** pydantic 2: no conversion to [str]. *)
Definition strict_str : PyVal → option string := λ _, None.

(** In the manner of pydantic 1: integers and booleans are printed. *)
Definition printing_str : PyVal → option string := λ v,
  match v with
  | PyInt z => Some (pretty z)
  | PyBool b => Some (if b then "True" else "False")
  | _ => None
  end.

(** A stand-in for the address check: something before an [@]. *)
Definition sample_email (s : string) : option string :=
  match String.index 0 "@" s with
  | Some (S _) => Some s
  | _ => None
  end.

(** A store that holds [docs] and answers every creation with [id]. *)
Definition store_of (docs : list PyVal) (id : string) : Gateway :=
  {| gw_create := λ _ _ _, Return id; gw_fetch := λ _ _, Return docs |}.

(** A store that fails every call with [e]. *)
Definition store_down (e : PyExc) : Gateway :=
  {| gw_create := λ _ _ _, Raise e; gw_fetch := λ _ _, Raise e |}.

(** The four projects the fallback is expected to build. *)
Definition default_project_set : list Project := [
  {| title := "Courtyard Residence";
     location := Some "Lisbon, Portugal";
     image := Some "https://images.unsplash.com/photo-1501045661006-fcebe0257c3f?q=80&w=1600&auto=format&fit=crop" |};
  {| title := "Gallery Pavilion";
     location := Some "Copenhagen, Denmark";
     image := Some "https://images.unsplash.com/photo-1529429612777-95c0d0f2ad32?q=80&w=1600&auto=format&fit=crop" |};
  {| title := "Cliff House";
     location := Some "Big Sur, USA";
     image := Some "https://images.unsplash.com/photo-1519710164239-da123dc03ef4?q=80&w=1600&auto=format&fit=crop" |};
  {| title := "Cultural Center";
     location := Some "Kyoto, Japan";
     image := Some "https://images.unsplash.com/photo-1518770660439-4636190af475?q=80&w=1600&auto=format&fit=crop" |}
].

(** ** The diagnostic endpoint (lines 32-65) *)

(** [os.getenv(key)]: the value, or [None] for a variable that is not set. *)
Definition os_getenv (env : gmap string string) (key : string) : PyVal :=
  from_option PyStr PyNone (env !! key).

(** ["✅ Set" if os.getenv(key) else "❌ Not Set"], lines 47, 63 and 64. *)
Definition set_or_not (env : gmap string string) (key : string) : PyVal :=
  PyStr (if truthy (os_getenv env key) then "✅ Set" else "❌ Not Set").

(** The [db] object of module [database], as far as [test_database] uses it:
    its [name] attribute (missing, a value, or a property that raises) and
    what [list_collection_names()] does. *)
Record Database : Type := {
  db_name : option (Outcome PyVal);
  list_collection_names : Outcome (list string);
}.

(** Two class tests by the name of the class, used in the examples: they
    know [ImportError] with [ModuleNotFoundError], and [AttributeError]. *)
Definition named_ImportError (e : PyExc) : bool :=
  match e with
  | PyError cls _ =>
      bool_decide (cls = "ImportError")
      || bool_decide (cls = "ModuleNotFoundError")
  | HTTPException _ _ => false
  end.

Definition named_AttributeError (e : PyExc) : bool :=
  match e with
  | PyError cls _ => bool_decide (cls = "AttributeError")
  | HTTPException _ _ => false
  end.

Section Diagnostic.

(** [isinstance(e, ImportError)] and [isinstance(e, AttributeError)], which
    is what [except ImportError] and [getattr] with a default test.  Which
    classes derive from the two is Python's class hierarchy; an exception of
    the model carries the name of its class only, so the tests are taken as
    they are. *)
Variable is_ImportError : PyExc → bool.
Variable is_AttributeError : PyExc → bool.

(** [getattr(obj, attr, dflt)]: the default stands in for a missing
    attribute, that is for an [AttributeError] only. *)
Definition getattr_default (attr : option (Outcome PyVal)) (dflt : PyVal)
    : Outcome PyVal :=
  match attr with
  | None => Return dflt
  | Some (Return v) => Return v
  | Some (Raise e) => if is_AttributeError e then Return dflt else Raise e
  end.

(** Statements that update the [response] dictionary in place and may
    raise. *)
Definition R (A : Type) : Type :=
  gmap string PyVal → Outcome A * gmap string PyVal.

Definition R_unit {A} (a : A) : R A := λ response, (Return a, response).

Definition R_bind {A B} (m : R A) (f : A → R B) : R B :=
  λ response,
    match m response with
    | (Return a, response') => f a response'
    | (Raise e, response') => (Raise e, response')
    end.

Definition R_then {B} (m : R unit) (k : R B) : R B := R_bind m (λ _, k).

(** An expression that leaves [response] alone. *)
Definition R_eval {A} (o : Outcome A) : R A := λ response, (o, response).

(** [response[key] = v]. *)
Definition assign (key : string) (v : PyVal) : R unit :=
  λ response, (Return (), <[key := v]> response).

(** [try: body except ...: handler(e)] over [response]: the handler sees the
    updates made before the exception. *)
Definition R_try {A} (body : R A) (handler : PyExc → R A) : R A :=
  λ response,
    match body response with
    | (Return a, response') => (Return a, response')
    | (Raise e, response') => handler e response'
    end.

(** The dictionary of lines 35-42. *)
Definition initial_response : gmap string PyVal :=
  {[ "backend" := PyStr "✅ Running";
     "database" := PyStr "❌ Not Available";
     "database_url" := PyNone;
     "database_name" := PyNone;
     "connection_status" := PyStr "Not Connected";
     "collections" := PyList [] ]}.

(** The body of the outer [try], lines 44-57, on the outcome of
    [from database import db]. *)
Definition test_database_try (env : gmap string string)
    (import_db : Outcome (option Database)) : R unit :=
  R_bind (R_eval import_db) (λ db,
    match db with
    | Some db =>
        R_then (assign "database" (PyStr "✅ Available")) (
        R_then (assign "database_url" (set_or_not env "DATABASE_URL")) (
        R_bind (R_eval (getattr_default (db_name db) (PyStr "✅ Connected")))
          (λ n,
        R_then (assign "database_name" n) (
        R_then (assign "connection_status" (PyStr "Connected")) (
        R_try
          (R_bind (R_eval (list_collection_names db)) (λ collections,
           R_then (assign "collections"
                     (PyList (PyStr <$> take 10 collections)))
                  (assign "database" (PyStr "✅ Connected & Working"))))
          (λ e, assign "database"
                  (PyStr ("⚠️  Connected but Error: "
                          +:+ str_take 50 (py_str e)))))))))
    | None => assign "database" (PyStr "⚠️  Available but not initialized")
    end).

(** The two handlers of the outer [try], lines 58-61. *)
Definition test_database_except (e : PyExc) : R unit :=
  if is_ImportError e
  then assign "database"
         (PyStr "❌ Database module not found (run enable-database first)")
  else assign "database" (PyStr ("❌ Error: " +:+ str_take 50 (py_str e))).

Definition test_database (env : gmap string string)
    (import_db : Outcome (option Database)) : Outcome (gmap string PyVal) :=
  let statements :=
    R_then (R_try (test_database_try env import_db) test_database_except) (
    R_then (assign "database_url" (set_or_not env "DATABASE_URL"))
           (assign "database_name" (set_or_not env "DATABASE_NAME"))) in
  match statements initial_response with
  | (Return _, response) => Return response
  | (Raise e, _) => Raise e
  end.

(** A variable that is set to something other than the empty string. *)
Definition env_set (env : gmap string string) (key : string) : bool :=
  match env !! key with
  | Some v => negb (String.eqb v "")
  | None => false
  end.

(** Reading [db.name] does not raise: the attribute is there, or is missing
    (also when a property raises the attribute error). *)
Definition name_readable (db : Database) : bool :=
  match db_name db with
  | Some (Raise e) => is_AttributeError e
  | _ => true
  end.

(** What the handlers of the outer [try] write for [e]. *)
Definition outer_except_text (e : PyExc) : string :=
  if is_ImportError e
  then "❌ Database module not found (run enable-database first)"
  else "❌ Error: " +:+ str_take 50 (py_str e).

(** The response with a given database text, connection status and
    collections, the two environment fields being read at the end. *)
Definition report (env : gmap string string) (database status : string)
    (collections : list PyVal) : gmap string PyVal :=
  {[ "backend" := PyStr "✅ Running";
     "database" := PyStr database;
     "database_url" := set_or_not env "DATABASE_URL";
     "database_name" := set_or_not env "DATABASE_NAME";
     "connection_status" := PyStr status;
     "collections" := PyList collections ]}.

End Diagnostic.

(** ** Reading a stored document *)

(** [d.get(key)] on a dictionary. *)
Definition field (m : gmap string PyVal) (key : string) : PyVal :=
  default PyNone (m !! key).

(** A value a [str] field or an [Optional[str]] field can hold as it is. *)
Definition is_text (v : PyVal) : bool :=
  match v with
  | PyNone | PyStr _ => true
  | _ => false
  end.

(** The five fields the loop reads are each missing, [None] or a string. *)
Definition text_fields (m : gmap string PyVal) : bool :=
  forallb (λ k, is_text (field m k))
    ["title"; "name"; "location"; "image"; "image_url"].

Definition text_of (v : PyVal) : option string :=
  match v with
  | PyStr s => Some s
  | _ => None
  end.

(** The first value of [vs] that is a non-empty string. *)
Fixpoint first_nonempty (vs : list PyVal) : option string :=
  match vs with
  | [] => None
  | PyStr s :: vs' => if String.eqb s "" then first_nonempty vs' else Some s
  | _ :: vs' => first_nonempty vs'
  end.

(** The value of [d.get("title") or d.get("name") or "Untitled"] (line 132)
    and of [d.get("image") or d.get("image_url")] (line 134) on a
    dictionary. *)
Definition selected_title (m : gmap string PyVal) : PyVal :=
  if truthy (field m "title") then field m "title"
  else if truthy (field m "name") then field m "name"
  else PyStr "Untitled".

Definition selected_image (m : gmap string PyVal) : PyVal :=
  if truthy (field m "image") then field m "image" else field m "image_url".

(** A list or a dictionary: what no version of pydantic takes for a [str]. *)
Definition is_container (v : PyVal) : bool :=
  match v with
  | PyList _ | PyDict _ => true
  | _ => false
  end.

Definition is_mapping (d : PyVal) : bool :=
  match d with
  | PyDict _ => true
  | _ => false
  end.

(** ** Sample inputs *)

(** A store that cannot be reached. *)
Definition unreachable : PyExc :=
  PyError "ServerSelectionTimeoutError" "connection refused".

Definition doc_Y : PyVal :=
  PyDict {[ "title" := PyStr "Y"; "name" := PyStr "X" ]}.
Definition doc_X : PyVal := PyDict {[ "name" := PyStr "X" ]}.

(** A project stored with a structured location. *)
Definition doc_nested_location : PyVal :=
  PyDict {[ "title" := PyStr "Atrium";
            "location" := PyDict {[ "city" := PyStr "Oslo" ]} ]}.

(** A project stored with one title per language. *)
Definition doc_localized_title : PyVal :=
  PyDict {[ "title" := PyDict {[ "en" := PyStr "Cliff House" ]} ]}.

(** A project stored with an empty image_url and no image. *)
Definition doc_empty_image_url : PyVal :=
  PyDict {[ "title" := PyStr "Atrium"; "image_url" := PyStr "" ]}.

(** A project whose name and image_url are not text; its title and image
    are, and are non-empty. *)
Definition fields_unread : gmap string PyVal :=
  {[ "title" := PyStr "Y"; "name" := PyList [PyStr "X"];
     "image" := PyStr "y.png"; "image_url" := PyInt 3 ]}.

(** A project stored with an empty image and an image_url. *)
Definition fields_Oslo : gmap string PyVal :=
  {[ "location" := PyStr "Oslo"; "image" := PyStr "";
     "image_url" := PyStr "https://img/1" ]}.

Definition doc_Atrium : PyVal := PyDict {[ "title" := PyStr "Atrium" ]}.

Definition contact_fields (n e m : string) : gmap string PyVal :=
  {[ "name" := PyStr n; "email" := PyStr e; "message" := PyStr m ]}.

Definition disk_full : PyExc := PyError "OSError" "disk full".

(** A name of sixty characters and a hundred and twenty bytes. *)
Definition sixty_e_acute : string := String.concat "" (replicate 60 "é").

(** A name of a hundred and one characters. *)
Definition hundred_and_one_a : string := String.concat "" (replicate 101 "a").

(** A contact body with a key the model does not declare, and a name that is
    within the bounds in characters only. *)
Definition contact_fields_extra : gmap string PyVal :=
  <[ "utm_source" := PyStr "newsletter" ]>
    (contact_fields sixty_e_acute "ann@example.org" "Please call me back.").

(** A contact body without an email. *)
Definition contact_fields_no_email : gmap string PyVal :=
  {[ "name" := PyStr "Ann"; "message" := PyStr "Please call me back." ]}.

(** A project stored with a number as its title. *)
Definition fields_number_title : gmap string PyVal :=
  {[ "title" := PyInt 7 ]}.

(** A project stored with the number zero as its title. *)
Definition fields_zero_title : gmap string PyVal :=
  {[ "title" := PyInt 0; "name" := PyStr "Loft" ]}.

(** A database of twelve collections. *)
Definition twelve_collections : list string :=
  ["c01"; "c02"; "c03"; "c04"; "c05"; "c06"; "c07"; "c08"; "c09"; "c10";
   "c11"; "c12"].

Definition db_working : Database :=
  {| db_name := Some (Return (PyStr "studio"));
     list_collection_names := Return twelve_collections |}.

(** A database on which listing the collections is refused, with a text of
    more than 50 characters, some of them outside ASCII. *)
Definition not_authorized : PyExc :=
  PyError "OperationFailure"
    "accès refusé : le rôle « invité » ne peut pas exécuter listCollections".

Definition db_refusing : Database :=
  {| db_name := None; list_collection_names := Raise not_authorized |}.

Definition env_url_only : gmap string string :=
  {[ "DATABASE_URL" := "mongodb://localhost:27017"; "DATABASE_NAME" := "" ]}.

(** * Properties *)

Section Properties.

Variable lax_str : PyVal → option string.
Variable validate_email : string → option string.
Variable gw : Gateway.

(** ** The fallback *)

Lemma fallback_default_project_set : fallback lax_str = Return default_project_set.
Proof. vm_compute. reflexivity. Qed.

(** ** The loop *)

(** The loop returns exactly when every document maps, and then appends the
    mapped projects to [items] in the order of [docs]. *)
Lemma for_docs_Return docs : ∀ items out,
  for_docs lax_str docs items = Return out ↔
  ∃ ps, Forall2 (λ d p, project_of_doc lax_str d = Return p) docs ps
        ∧ out = (items ++ ps)%list.
Proof.
  induction docs as [|d docs IH]; intros items out; simpl.
  - split.
    + intros [= <-]. exists []. split; [constructor | by rewrite app_nil_r].
    + intros (ps & Hps & ->). inversion Hps. by rewrite app_nil_r.
  - destruct (project_of_doc lax_str d) as [p|e] eqn:Hd; simpl.
    + rewrite IH. split.
      * intros (ps & Hps & ->). exists (p :: ps).
        split; [by constructor | by rewrite <- app_assoc].
      * intros (ps & Hps & ->). inversion Hps as [|? p' ? ps' Hp' Hrest]; subst.
        assert (p' = p) as -> by congruence.
        exists ps'. split; [done | by rewrite <- app_assoc].
    + split; [done |].
      intros (ps & Hps & _). inversion Hps; subst. congruence.
Qed.

(** One document that does not map makes the whole loop raise. *)
Lemma for_docs_Raise docs : ∀ items d e,
  d ∈ docs → project_of_doc lax_str d = Raise e →
  ∃ e', for_docs lax_str docs items = Raise e'.
Proof.
  induction docs as [|d0 docs IH]; intros items d e Hin Hd; simpl.
  - by apply elem_of_nil in Hin.
  - destruct (project_of_doc lax_str d0) as [p|e0] eqn:Hd0; simpl; [|by eauto].
    apply elem_of_cons in Hin as [->|Hin]; [congruence | by eapply IH].
Qed.

(** ** [list_projects], one gateway answer at a time *)

Lemma list_projects_Raise log e :
  gw_fetch gw log "projects" = Raise e →
  list_projects lax_str gw log = (Return default_project_set, (log ++ [CallGet "projects"])%list).
Proof.
  intros Hgw. unfold list_projects, try_except, get_documents, mbind, M_bind.
  rewrite Hgw. unfold lift. by rewrite fallback_default_project_set.
Qed.

Lemma list_projects_Return log docs :
  gw_fetch gw log "projects" = Return docs →
  list_projects lax_str gw log =
    (match docs with
     | [] => Return default_project_set
     | _ => match for_docs lax_str docs [] with
            | Return ps => Return ps
            | Raise _ => Return default_project_set
            end
     end, (log ++ [CallGet "projects"])%list).
Proof.
  intros Hgw. unfold list_projects, try_except, get_documents, mbind, M_bind.
  rewrite Hgw. destruct docs as [|d docs]; unfold lift.
  - simpl. by rewrite fallback_default_project_set.
  - change (negb (truthy (PyList (d :: docs)))) with false. cbv iota.
    destruct (for_docs lax_str (d :: docs) []); [done|].
    by rewrite fallback_default_project_set.
Qed.

(** ** The mapping of one document *)

Lemma Project__init__kwargs t l i :
  Project__init__ lax_str {[ "title" := t; "location" := l; "image" := i ]} =
    t' ← validate_str lax_str "Project" t;
    l' ← validate_optional_str lax_str "Project" l;
    i' ← validate_optional_str lax_str "Project" i;
    mret {| title := t'; location := l'; image := i' |}.
Proof.
  unfold Project__init__, required, optional.
  by simplify_map_eq.
Qed.

(** On a dictionary no [get] raises, and the two [or] chains pick a value. *)
Lemma project_of_doc_dict m :
  project_of_doc lax_str (PyDict m) =
    Project__init__ lax_str
      {[ "title" := if truthy (field m "title") then field m "title"
                    else if truthy (field m "name") then field m "name"
                    else PyStr "Untitled";
         "location" := field m "location";
         "image" := if truthy (field m "image") then field m "image"
                    else field m "image_url" ]}.
Proof.
  unfold project_of_doc, py_get, py_or. fold (field m "title") (field m "name")
    (field m "location") (field m "image") (field m "image_url").
  simpl. destruct (truthy (field m "title")), (truthy (field m "name")),
    (truthy (field m "image")); reflexivity.
Qed.

(** Anything but a dictionary has no [get]. *)
Lemma project_of_doc_non_mapping d :
  is_mapping d = false → project_of_doc lax_str d = Raise AttributeError.
Proof. by destruct d. Qed.

Lemma first_nonempty_nonempty vs s : first_nonempty vs = Some s → s ≠ "".
Proof.
  induction vs as [|v vs IH]; simpl; [done|].
  destruct v as [| | |s'| | |]; try done.
  destruct (String.eqb s' "") eqn:Hs'; [done|].
  intros [= <-]. by apply String.eqb_neq.
Qed.

(** When the five fields are text, the [Project] is built, whatever pydantic
    does with other values. *)
Lemma project_of_doc_text m :
  text_fields m = true →
  project_of_doc lax_str (PyDict m) = Return
    {| title := default "Untitled"
                  (first_nonempty [field m "title"; field m "name"]);
       location := text_of (field m "location");
       image := match first_nonempty [field m "image"] with
                | Some s => Some s
                | None => text_of (field m "image_url")
                end |}.
Proof.
  unfold text_fields. simpl. rewrite !andb_true_iff.
  intros (Ht & Hn & Hl & Hi & Hu & _).
  rewrite project_of_doc_dict, Project__init__kwargs.
  destruct (field m "title") as [| | |t| | |]; try discriminate Ht;
  destruct (field m "name") as [| | |n| | |]; try discriminate Hn;
  destruct (field m "location") as [| | |l| | |]; try discriminate Hl;
  destruct (field m "image") as [| | |i| | |]; try discriminate Hi;
  destruct (field m "image_url") as [| | |u| | |]; try discriminate Hu;
  simpl;
  repeat match goal with
         | |- context [String.eqb ?x ""] => destruct (String.eqb x ""); simpl
         end;
  reflexivity.
Qed.

(** A falsy value is passed over. *)
Lemma first_nonempty_falsy v vs :
  truthy v = false → first_nonempty (v :: vs) = first_nonempty vs.
Proof.
  destruct v as [| | |s| | |]; simpl; try done.
  by destruct (String.eqb s "").
Qed.

Lemma first_nonempty_truthy s vs :
  truthy (PyStr s) = true → first_nonempty (PyStr s :: vs) = Some s.
Proof. simpl. by destruct (String.eqb s ""). Qed.

Lemma selected_title_truthy m : truthy (selected_title m) = true.
Proof.
  unfold selected_title.
  destruct (truthy (field m "title")) eqn:Ht; [done|].
  by destruct (truthy (field m "name")) eqn:Hn.
Qed.

(** A selected title that is text is a string, the first non-empty one. *)
Lemma selected_title_text m :
  is_text (selected_title m) = true →
  selected_title m =
    PyStr (default "Untitled"
             (first_nonempty [field m "title"; field m "name"])).
Proof.
  pose proof (selected_title_truthy m) as Htruthy. revert Htruthy.
  unfold selected_title.
  destruct (truthy (field m "title")) eqn:Ht.
  - destruct (field m "title") as [| | |s| | |]; try done.
    intros _ _. by rewrite first_nonempty_truthy.
  - rewrite (first_nonempty_falsy _ _ Ht).
    destruct (truthy (field m "name")) eqn:Hn.
    + destruct (field m "name") as [| | |s| | |]; try done.
      intros _ _. by rewrite first_nonempty_truthy.
    + by rewrite (first_nonempty_falsy _ _ Hn).
Qed.

Lemma validate_optional_str_text v :
  is_text v = true →
  validate_optional_str lax_str "Project" v = Return (text_of v).
Proof. by destruct v. Qed.

(** ** Contact submission *)

Lemma submit_contact_Return msg log id :
  gw_create gw log "contact_messages" msg = Return id →
  submit_contact gw msg log =
    (Return (PyDict {[ "status" := PyStr "ok"; "id" := PyStr id ]}),
     (log ++ [CallCreate "contact_messages" msg])%list).
Proof.
  intros Hgw. unfold submit_contact, try_except, create_document, mbind, M_bind.
  by rewrite Hgw.
Qed.

Lemma submit_contact_Raise msg log e :
  gw_create gw log "contact_messages" msg = Raise e →
  submit_contact gw msg log =
    (Raise (HTTPException 500 (py_str e)),
     (log ++ [CallCreate "contact_messages" msg])%list).
Proof.
  intros Hgw. unfold submit_contact, try_except, create_document, mbind, M_bind.
  by rewrite Hgw.
Qed.

(** Whatever the store answers, the handler calls it once. *)
Lemma submit_contact_log msg log :
  (submit_contact gw msg log).2 = (log ++ [CallCreate "contact_messages" msg])%list.
Proof.
  destruct (gw_create gw log "contact_messages" msg) as [id|e] eqn:Hgw.
  - by rewrite (submit_contact_Return _ _ _ Hgw).
  - by rewrite (submit_contact_Raise _ _ _ Hgw).
Qed.

Lemma post_api_contact_valid body msg log :
  request_body lax_str validate_email body = Return msg →
  post_api_contact lax_str validate_email gw body log =
    respond (submit_contact gw msg) log.
Proof. intros Hb. unfold post_api_contact. by rewrite Hb. Qed.

Lemma post_api_contact_invalid body e log :
  request_body lax_str validate_email body = Raise e →
  post_api_contact lax_str validate_email gw body log =
    (RequestValidationError, log).
Proof. intros Hb. unfold post_api_contact. by rewrite Hb. Qed.

Lemma request_body_short_name m n :
  m !! "name" = Some (PyStr n) → (py_len n < 2)%nat →
  ∃ e, request_body lax_str validate_email (PyDict m) = Raise e.
Proof.
  intros Hn Hlen. unfold request_body, ContactMessageIn__init__, required.
  rewrite Hn. unfold validate_constr, validate_str, mbind, Outcome_bind.
  assert ((2 <=? py_len n)%nat = false) as -> by (apply Nat.leb_gt; lia).
  simpl. eauto.
Qed.

Lemma request_body_invalid_email m a :
  m !! "email" = Some (PyStr a) → validate_email a = None →
  ∃ e, request_body lax_str validate_email (PyDict m) = Raise e.
Proof.
  intros Ha Hbad. unfold request_body, ContactMessageIn__init__.
  destruct (required "ContactMessageIn" m "name" _) as [n|e];
    [|by simpl; eauto].
  unfold required, validate_EmailStr, validate_str, mbind, Outcome_bind.
  rewrite Ha, Hbad. eauto.
Qed.

(** ** The claims *)

(** C1: if [get_documents("projects")] raises, [list_projects] returns exactly
    the four default projects, and the route answers 200 with them: the caller
    sees no failure. *)
Theorem list_projects_fail_open log e :
  gw_fetch gw log "projects" = Raise e →
  list_projects lax_str gw log =
    (Return default_project_set, (log ++ [CallGet "projects"])%list)
  ∧ length default_project_set = 4%nat
  ∧ get_api_projects lax_str gw log =
      (JSONResponse 200 (PyList (Project_json <$> default_project_set)),
       (log ++ [CallGet "projects"])%list).
Proof.
  intros Hgw. split; [by apply list_projects_Raise with e|]. split; [done|].
  unfold get_api_projects, respond, mbind, M_bind.
  by rewrite (list_projects_Raise _ _ Hgw).
Qed.

(** C2: if the gateway call succeeds with an empty list, [list_projects]
    returns exactly the four default projects. *)
Theorem list_projects_empty_store log :
  gw_fetch gw log "projects" = Return [] →
  list_projects lax_str gw log =
    (Return default_project_set, (log ++ [CallGet "projects"])%list)
  ∧ length default_project_set = 4%nat.
Proof.
  intros Hgw. split; [|done]. by rewrite (list_projects_Return _ _ Hgw).
Qed.

(** C3 (amended): for every non-empty list of documents each of which maps to
    a [Project], [list_projects] returns the mapped projects, one per
    document, in the order of the store. *)
Theorem list_projects_maps_in_order log docs ps :
  gw_fetch gw log "projects" = Return docs →
  docs ≠ [] →
  Forall2 (λ d p, project_of_doc lax_str d = Return p) docs ps →
  list_projects lax_str gw log =
    (Return ps, (log ++ [CallGet "projects"])%list).
Proof.
  intros Hgw Hne Hall. rewrite (list_projects_Return _ _ Hgw).
  destruct docs as [|d docs]; [done|].
  assert (for_docs lax_str (d :: docs) [] = Return ps) as ->; [|done].
  apply for_docs_Return. by exists ps.
Qed.

(** C4 (amended): for every dictionary (the empty one included) in which
    the value selected for the title is a string, the location is missing,
    [None] or a string, and the value selected for the image is missing,
    [None] or a string, the mapping produces a [Project] whose title is the
    first non-empty string among title, then name, and otherwise "Untitled";
    the title is never empty.  When the value selected for the title is a
    list or a dictionary, no [Project] is produced. *)
Theorem project_of_doc_title m :
  (is_text (selected_title m) = true →
   is_text (field m "location") = true →
   is_text (selected_image m) = true →
   ∃ p, project_of_doc lax_str (PyDict m) = Return p
        ∧ title p = default "Untitled"
                      (first_nonempty [field m "title"; field m "name"])
        ∧ title p ≠ "")
  ∧ (is_container (selected_title m) = true →
     project_of_doc lax_str (PyDict m) = Raise (ValidationError "Project")).
Proof.
  rewrite project_of_doc_dict, Project__init__kwargs.
  fold (selected_title m) (selected_image m). split.
  - intros Ht Hl Hi. rewrite (selected_title_text m Ht).
    rewrite (validate_optional_str_text _ Hl), (validate_optional_str_text _ Hi).
    eexists. split; [reflexivity|]. split; [reflexivity|]. cbn [title].
    destruct (first_nonempty [field m "title"; field m "name"]) as [s|] eqn:Hs;
      [by eapply first_nonempty_nonempty | done].
  - intros Hc. by destruct (selected_title m).
Qed.

(** C5 (amended): for every dictionary whose five fields are each missing,
    [None] or a string, the location is the stored location when it is a
    string and absent otherwise (so absent, not empty, for a missing field);
    the image is the stored image when that is a non-empty string, otherwise
    the stored image_url when that is a string, empty or not, and absent
    otherwise. *)
Theorem project_of_doc_location_image m :
  text_fields m = true →
  ∃ p, project_of_doc lax_str (PyDict m) = Return p
       ∧ location p = text_of (field m "location")
       ∧ (m !! "location" = None → location p = None)
       ∧ image p = match first_nonempty [field m "image"] with
                   | Some s => Some s
                   | None => text_of (field m "image_url")
                   end.
Proof.
  intros Htext. eexists. split; [by apply project_of_doc_text|].
  split; [done|]. split; [|done].
  simpl. unfold field. by intros ->.
Qed.

(** C6: the fallback makes no gateway call and builds the same four projects
    on every call, whatever the log and whatever pydantic converts; their
    titles are, in order, Courtyard Residence, Gallery Pavilion, Cliff House,
    Cultural Center. *)
Theorem fallback_deterministic log :
  lift (fallback lax_str) log = (Return default_project_set, log)
  ∧ length default_project_set = 4%nat
  ∧ title <$> default_project_set =
      ["Courtyard Residence"; "Gallery Pavilion"; "Cliff House";
       "Cultural Center"].
Proof.
  unfold lift. by rewrite fallback_default_project_set.
Qed.

(** C7: a body whose name has fewer than 2 characters, or whose email is
    not a valid address, is answered with the 422 validation error and the
    gateway log is unchanged; a body that validates makes exactly one
    [create_document] call, and when that call returns an id the answer is
    [{"status": "ok", "id": id}] with status 200. *)
Theorem post_api_contact_validation body log :
  (∀ m n, body = PyDict m → m !! "name" = Some (PyStr n) →
          (py_len n < 2)%nat →
          post_api_contact lax_str validate_email gw body log =
            (RequestValidationError, log))
  ∧ (∀ m a, body = PyDict m → m !! "email" = Some (PyStr a) →
            validate_email a = None →
            post_api_contact lax_str validate_email gw body log =
              (RequestValidationError, log))
  ∧ status_code_of RequestValidationError = 422%nat
  ∧ (∀ msg, request_body lax_str validate_email body = Return msg →
            (post_api_contact lax_str validate_email gw body log).2 =
              (log ++ [CallCreate "contact_messages" msg])%list
            ∧ ∀ id, gw_create gw log "contact_messages" msg = Return id →
                    (post_api_contact lax_str validate_email gw body log).1 =
                      JSONResponse 200
                        (PyDict {[ "status" := PyStr "ok"; "id" := PyStr id ]})).
Proof.
  split; [|split; [|split; [reflexivity|]]].
  - intros m n -> Hn Hlen.
    destruct (request_body_short_name m n Hn Hlen) as [e He].
    by apply post_api_contact_invalid with e.
  - intros m a -> Ha Hbad.
    destruct (request_body_invalid_email m a Ha Hbad) as [e He].
    by apply post_api_contact_invalid with e.
  - intros msg Hb. rewrite (post_api_contact_valid _ _ _ Hb). unfold respond.
    split.
    + pose proof (submit_contact_log msg log) as Hlog.
      destruct (submit_contact gw msg log) as [[v|[c d|c t]] log']; exact Hlog.
    + intros id Hid. by rewrite (submit_contact_Return _ _ _ Hid).
Qed.

(** C8: when the body validates and [create_document] raises, the answer has
    status 500 and its detail is the text of the exception; an exception
    whose text is "disk full" gives the detail "disk full". *)
Theorem post_api_contact_create_fails body msg log e :
  request_body lax_str validate_email body = Return msg →
  gw_create gw log "contact_messages" msg = Raise e →
  post_api_contact lax_str validate_email gw body log =
    (JSONResponse 500 (PyDict {[ "detail" := PyStr (py_str e) ]}),
     (log ++ [CallCreate "contact_messages" msg])%list)
  ∧ (∀ cls, e = PyError cls "disk full" → py_str e = "disk full").
Proof.
  intros Hb Hgw. split; [|by intros cls ->].
  rewrite (post_api_contact_valid _ _ _ Hb). unfold respond.
  by rewrite (submit_contact_Raise _ _ _ Hgw).
Qed.

(** C9 (amended): if the store returns a list that contains a record that is
    not a dictionary, [list_projects] does not raise: it returns exactly the
    four default projects, and no record of the list is mapped. *)
Theorem list_projects_non_mapping log docs d :
  gw_fetch gw log "projects" = Return docs →
  d ∈ docs → is_mapping d = false →
  list_projects lax_str gw log =
    (Return default_project_set, (log ++ [CallGet "projects"])%list).
Proof.
  intros Hgw Hin Hd. rewrite (list_projects_Return _ _ Hgw).
  destruct docs as [|d0 docs]; [done|].
  destruct (for_docs_Raise (d0 :: docs) [] d AttributeError Hin) as [e' ->];
    [by apply project_of_doc_non_mapping | done].
Qed.

(** C10: whatever the gateway answers, [list_projects] returns, and what it
    returns is not empty: it is the four default projects, or one mapped
    [Project] per stored document. *)
Theorem list_projects_never_empty log :
  ∃ ps, list_projects lax_str gw log =
          (Return ps, (log ++ [CallGet "projects"])%list)
        ∧ ps ≠ []
        ∧ (ps = default_project_set
           ∨ ∃ docs, gw_fetch gw log "projects" = Return docs
                     ∧ Forall2 (λ d p, project_of_doc lax_str d = Return p)
                         docs ps).
Proof.
  destruct (gw_fetch gw log "projects") as [docs|e] eqn:Hgw.
  - rewrite (list_projects_Return _ _ Hgw). destruct docs as [|d docs].
    + exists default_project_set. by auto.
    + destruct (for_docs lax_str (d :: docs) []) as [ps|e] eqn:Hloop.
      * exists ps. split; [done|].
        apply for_docs_Return in Hloop as (ps' & Hall & ->). simpl.
        split; [by inversion Hall | right; by exists (d :: docs)].
      * exists default_project_set. by auto.
  - rewrite (list_projects_Raise _ _ Hgw). exists default_project_set. by auto.
Qed.

End Properties.

(** * The claims at concrete inputs *)

Lemma list_projects_fail_open_witness :
  list_projects strict_str (store_down unreachable) [] =
    (Return default_project_set, [CallGet "projects"])
  ∧ length default_project_set = 4%nat
  ∧ get_api_projects strict_str (store_down unreachable) [] =
      (JSONResponse 200 (PyList (Project_json <$> default_project_set)),
       [CallGet "projects"]).
Proof.
  apply (list_projects_fail_open strict_str (store_down unreachable) []
           unreachable).
  reflexivity.
Defined.

Lemma list_projects_empty_store_witness :
  list_projects strict_str (store_of [] "65f0c1") [] =
    (Return default_project_set, [CallGet "projects"])
  ∧ length default_project_set = 4%nat.
Proof.
  apply (list_projects_empty_store strict_str (store_of [] "65f0c1") []).
  reflexivity.
Defined.

(** Records [A, B] come back as [map(A), map(B)]. *)
Lemma list_projects_maps_in_order_witness :
  list_projects strict_str (store_of [doc_Y; doc_X] "65f0c1") [] =
    (Return [ {| title := "Y"; location := None; image := None |};
              {| title := "X"; location := None; image := None |} ],
     [CallGet "projects"]).
Proof.
  apply (list_projects_maps_in_order strict_str
           (store_of [doc_Y; doc_X] "65f0c1") [] [doc_Y; doc_X]).
  - reflexivity.
  - discriminate.
  - repeat constructor.
Defined.

(** One record whose location is a dictionary: nothing of the store is
    listed, the four default projects are. *)
Lemma list_projects_unmappable_record :
  project_of_doc strict_str doc_nested_location =
    Raise (ValidationError "Project")
  ∧ list_projects strict_str (store_of [doc_nested_location] "65f0c1") [] =
      (Return default_project_set, [CallGet "projects"])
  ∧ list_projects printing_str (store_of [doc_nested_location] "65f0c1") [] =
      (Return default_project_set, [CallGet "projects"]).
Proof. repeat split; vm_compute; reflexivity. Qed.

(** The empty dictionary, a name alone, a title before a name, a record
    whose name and image_url are not text but are not read either, and a
    title that is a dictionary. *)
Lemma project_of_doc_title_witness :
  (∃ p, project_of_doc strict_str (PyDict ∅) = Return p
        ∧ title p = "Untitled" ∧ title p ≠ "")
  ∧ (∃ p, project_of_doc strict_str doc_X = Return p
          ∧ title p = "X" ∧ title p ≠ "")
  ∧ (∃ p, project_of_doc strict_str doc_Y = Return p
          ∧ title p = "Y" ∧ title p ≠ "")
  ∧ (∃ p, project_of_doc strict_str (PyDict fields_unread) = Return p
          ∧ title p = "Y" ∧ title p ≠ "")
  ∧ project_of_doc strict_str doc_localized_title =
      Raise (ValidationError "Project").
Proof.
  split; [|split; [|split; [|split]]].
  - destruct (project_of_doc_title strict_str ∅) as [H _].
    vm_compute in H. apply H; reflexivity.
  - destruct (project_of_doc_title strict_str {[ "name" := PyStr "X" ]})
      as [H _].
    vm_compute in H. apply H; reflexivity.
  - destruct (project_of_doc_title strict_str
                {[ "title" := PyStr "Y"; "name" := PyStr "X" ]}) as [H _].
    vm_compute in H. apply H; reflexivity.
  - destruct (project_of_doc_title strict_str fields_unread) as [H _].
    vm_compute in H. apply H; reflexivity.
  - destruct (project_of_doc_title strict_str
                {[ "title" := PyDict {[ "en" := PyStr "Cliff House" ]} ]})
      as [_ H].
    apply H. reflexivity.
Defined.

(** A title that is a dictionary: no [Project] is built, under either
    conversion. *)
Lemma project_of_doc_localized_title :
  project_of_doc strict_str doc_localized_title =
    Raise (ValidationError "Project")
  ∧ project_of_doc printing_str doc_localized_title =
      Raise (ValidationError "Project").
Proof. split; vm_compute; reflexivity. Qed.

Lemma project_of_doc_location_image_witness :
  ∃ p, project_of_doc strict_str (PyDict fields_Oslo) = Return p
       ∧ location p = Some "Oslo"
       ∧ image p = Some "https://img/1".
Proof.
  destruct (project_of_doc_location_image strict_str fields_Oslo eq_refl)
    as (p & Hp & Hl & _ & Hi).
  vm_compute in Hl, Hi. exists p. split; [exact Hp|]. split; [exact Hl|exact Hi].
Defined.

(** An empty image_url and no image: the image is the empty string, not
    absent. *)
Lemma project_of_doc_empty_image_url :
  project_of_doc strict_str doc_empty_image_url =
    Return {| title := "Atrium"; location := None; image := Some "" |}
  ∧ project_of_doc printing_str doc_empty_image_url =
      Return {| title := "Atrium"; location := None; image := Some "" |}.
Proof. split; vm_compute; reflexivity. Qed.

(** A one-character name, in ASCII and outside it; an address with no [@]; a
    valid message, stored under the id the gateway returns. *)
Lemma post_api_contact_validation_witness :
  post_api_contact strict_str sample_email (store_of [] "65f0c1")
    (PyDict (contact_fields "A" "ann@example.org" "Please call me back."))
    [] = (RequestValidationError, [])
  ∧ post_api_contact strict_str sample_email (store_of [] "65f0c1")
      (PyDict (contact_fields "é" "ann@example.org" "Please call me back."))
      [] = (RequestValidationError, [])
  ∧ post_api_contact strict_str sample_email (store_of [] "65f0c1")
      (PyDict (contact_fields "Ann" "ann.example.org" "Please call me back."))
      [] = (RequestValidationError, [])
  ∧ post_api_contact strict_str sample_email (store_of [] "65f0c1")
      (PyDict (contact_fields "Ann" "ann@example.org" "Please call me back."))
      [] =
      (JSONResponse 200 (PyDict {[ "status" := PyStr "ok";
                                   "id" := PyStr "65f0c1" ]}),
       [CallCreate "contact_messages"
          {| name := "Ann"; email := "ann@example.org";
             message := "Please call me back." |}]).
Proof.
  split; [|split; [|split]].
  - destruct (post_api_contact_validation strict_str sample_email
                (store_of [] "65f0c1")
                (PyDict (contact_fields "A" "ann@example.org"
                           "Please call me back.")) [])
      as (Hname & _).
    apply (Hname _ "A" eq_refl); [reflexivity | simpl; lia].
  - destruct (post_api_contact_validation strict_str sample_email
                (store_of [] "65f0c1")
                (PyDict (contact_fields "é" "ann@example.org"
                           "Please call me back.")) [])
      as (Hname & _).
    apply (Hname _ "é" eq_refl); [reflexivity | simpl; lia].
  - destruct (post_api_contact_validation strict_str sample_email
                (store_of [] "65f0c1")
                (PyDict (contact_fields "Ann" "ann.example.org"
                           "Please call me back.")) [])
      as (_ & Hemail & _).
    apply (Hemail _ "ann.example.org" eq_refl); reflexivity.
  - destruct (post_api_contact_validation strict_str sample_email
                (store_of [] "65f0c1")
                (PyDict (contact_fields "Ann" "ann@example.org"
                           "Please call me back.")) [])
      as (_ & _ & _ & Hvalid).
    destruct (Hvalid {| name := "Ann"; email := "ann@example.org";
                        message := "Please call me back." |})
      as [Hlog Hresp]; [vm_compute; reflexivity|].
    specialize (Hresp "65f0c1" eq_refl).
    destruct (post_api_contact _ _ _ _ _) as [r l]. simpl in Hlog, Hresp.
    by rewrite Hlog, Hresp.
Defined.

(** The store fails with "disk full": status 500, and the text is in the
    body. *)
Lemma post_api_contact_create_fails_witness :
  post_api_contact strict_str sample_email (store_down disk_full)
    (PyDict (contact_fields "Ann" "ann@example.org" "Please call me back."))
    [] =
    (JSONResponse 500 (PyDict {[ "detail" := PyStr "disk full" ]}),
     [CallCreate "contact_messages"
        {| name := "Ann"; email := "ann@example.org";
           message := "Please call me back." |}]).
Proof.
  destruct (post_api_contact_create_fails strict_str sample_email
              (store_down disk_full)
              (PyDict (contact_fields "Ann" "ann@example.org"
                         "Please call me back."))
              {| name := "Ann"; email := "ann@example.org";
                 message := "Please call me back." |} [] disk_full)
    as [Hresp _]; [vm_compute; reflexivity | reflexivity |].
  exact Hresp.
Defined.

Lemma list_projects_non_mapping_witness :
  list_projects strict_str (store_of [doc_Atrium; PyStr "draft"] "65f0c1") [] =
    (Return default_project_set, [CallGet "projects"]).
Proof.
  apply (list_projects_non_mapping strict_str
           (store_of [doc_Atrium; PyStr "draft"] "65f0c1") []
           [doc_Atrium; PyStr "draft"] (PyStr "draft")).
  - reflexivity.
  - apply list_elem_of_In. simpl. auto.
  - reflexivity.
Defined.

(** A well-formed record next to a string: the well-formed one maps on its
    own, yet the listing is the four default projects and not Atrium followed
    by Untitled. *)
Lemma list_projects_malformed_record :
  project_of_doc strict_str doc_Atrium =
    Return {| title := "Atrium"; location := None; image := None |}
  ∧ list_projects strict_str
      (store_of [doc_Atrium; PyStr "draft"] "65f0c1") [] =
      (Return default_project_set, [CallGet "projects"])
  ∧ list_projects printing_str
      (store_of [doc_Atrium; PyStr "draft"] "65f0c1") [] =
      (Return default_project_set, [CallGet "projects"]).
Proof. repeat split; vm_compute; reflexivity. Qed.


(** * Further properties of the handlers *)

Section Coverage.

Variable lax_str : PyVal → option string.
Variable validate_email : string → option string.
Variable gw : Gateway.

(** ** Validation of the contact body *)

Lemma validate_constr_Return model lo hi v s :
  validate_constr lax_str model lo hi v = Return s →
  validate_str lax_str model v = Return s
  ∧ (lo ≤ py_len s)%nat ∧ (py_len s ≤ hi)%nat.
Proof.
  unfold validate_constr, mbind, Outcome_bind.
  destruct (validate_str lax_str model v) as [s'|e]; [|done].
  destruct (lo <=? py_len s')%nat eqn:Hlo; [|done].
  destruct (py_len s' <=? hi)%nat eqn:Hhi; [|done].
  intros [= <-]. apply Nat.leb_le in Hlo, Hhi. done.
Qed.

Lemma validate_EmailStr_Return model v s :
  validate_EmailStr lax_str validate_email model v = Return s →
  ∃ raw, validate_str lax_str model v = Return raw
         ∧ validate_email raw = Some s.
Proof.
  unfold validate_EmailStr, mbind, Outcome_bind.
  destruct (validate_str lax_str model v) as [raw|e]; [|done].
  destruct (validate_email raw) as [s'|] eqn:Hraw; [|done].
  intros [= <-]. by exists raw.
Qed.

(** The constructor returns only when each of the three fields is there and
    validates, and the record holds the three validated values. *)
Lemma ContactMessageIn__init__Return m msg :
  ContactMessageIn__init__ lax_str validate_email m = Return msg →
  ∃ vn ve vm,
    m !! "name" = Some vn ∧ m !! "email" = Some ve ∧ m !! "message" = Some vm
    ∧ validate_constr lax_str "ContactMessageIn" 2 100 vn = Return (name msg)
    ∧ validate_EmailStr lax_str validate_email "ContactMessageIn" ve =
        Return (email msg)
    ∧ validate_constr lax_str "ContactMessageIn" 10 5000 vm =
        Return (message msg).
Proof.
  unfold ContactMessageIn__init__, required, mbind, Outcome_bind.
  destruct (m !! "name") as [vn|]; [|done].
  destruct (validate_constr _ _ _ _ vn) as [n|?] eqn:Hn; [|done].
  destruct (m !! "email") as [ve|]; [|done].
  destruct (validate_EmailStr _ _ _ ve) as [a|?] eqn:Ha; [|done].
  destruct (m !! "message") as [vm|]; [|done].
  destruct (validate_constr _ _ _ _ vm) as [t|?] eqn:Ht; [|done].
  intros [= <-]. by exists vn, ve, vm.
Qed.

Lemma request_body_Return body msg :
  request_body lax_str validate_email body = Return msg →
  ∃ m, body = PyDict m
       ∧ ContactMessageIn__init__ lax_str validate_email m = Return msg.
Proof. destruct body; try done. intros H. by eexists. Qed.

(** What is not a validated body is answered 422 and reaches no gateway. *)
Lemma post_api_contact_rejects body log :
  (∀ msg, request_body lax_str validate_email body ≠ Return msg) →
  post_api_contact lax_str validate_email gw body log =
    (RequestValidationError, log).
Proof.
  intros Hno. unfold post_api_contact.
  destruct (request_body lax_str validate_email body) as [msg|e]; [|done].
  by destruct (Hno msg).
Qed.


(** X2: the contact route either rejects the body with no gateway call, or
    makes exactly one call, a create in "contact_messages" of the validated
    message; then it answers 200 when the store returned an id and 500
    otherwise, and never with the bare 500 of an uncaught exception. *)
Theorem post_api_contact_calls body log :
  (post_api_contact lax_str validate_email gw body log =
     (RequestValidationError, log)
   ∧ ∀ msg, request_body lax_str validate_email body ≠ Return msg)
  ∨ ∃ msg,
      request_body lax_str validate_email body = Return msg
      ∧ (post_api_contact lax_str validate_email gw body log).2 =
          (log ++ [CallCreate "contact_messages" msg])%list
      ∧ (post_api_contact lax_str validate_email gw body log).1 ≠
          InternalServerError
      ∧ (status_code_of
           (post_api_contact lax_str validate_email gw body log).1 = 200%nat
         ∧ (∃ id, gw_create gw log "contact_messages" msg = Return id)
         ∨ status_code_of
             (post_api_contact lax_str validate_email gw body log).1 = 500%nat
           ∧ ∃ e, gw_create gw log "contact_messages" msg = Raise e).
Proof.
  destruct (request_body lax_str validate_email body) as [msg|e] eqn:Hb.
  - right. exists msg. split; [done|].
    rewrite (post_api_contact_valid _ _ _ _ _ _ Hb). unfold respond.
    destruct (gw_create gw log "contact_messages" msg) as [id|e] eqn:Hgw.
    + rewrite (submit_contact_Return _ _ _ _ Hgw). simpl. by eauto 10.
    + rewrite (submit_contact_Raise _ _ _ _ Hgw). simpl. by eauto 10.
  - left. by rewrite (post_api_contact_invalid _ _ _ _ _ _ Hb).
Qed.

(** X3: a body whose name, email and message are strings within the bounds,
    with an address the check accepts, validates whatever other keys it
    holds; the message built carries the address as the check returned it. *)
Theorem request_body_accepts m n a a' t :
  m !! "name" = Some (PyStr n) →
  m !! "email" = Some (PyStr a) →
  m !! "message" = Some (PyStr t) →
  (2 ≤ py_len n ≤ 100)%nat →
  (10 ≤ py_len t ≤ 5000)%nat →
  validate_email a = Some a' →
  request_body lax_str validate_email (PyDict m) =
    Return {| name := n; email := a'; message := t |}.
Proof.
  intros Hn Ha Ht [Hn1 Hn2] [Ht1 Ht2] Hok.
  unfold request_body, ContactMessageIn__init__, required, validate_constr,
    validate_EmailStr, validate_str, mbind, Outcome_bind.
  rewrite Hn, Ha, Ht, Hok.
  apply Nat.leb_le in Hn1, Hn2, Ht1, Ht2.
  by rewrite Hn1, Hn2, Ht1, Ht2.
Qed.

(** X4: a name of more than 100 characters, or a message of fewer than 10 or
    more than 5000, is rejected with the 422 answer and no gateway call. *)
Theorem post_api_contact_length_bounds m log :
  (∃ n, m !! "name" = Some (PyStr n) ∧ (100 < py_len n)%nat)
  ∨ (∃ t, m !! "message" = Some (PyStr t)
          ∧ ((py_len t < 10)%nat ∨ (5000 < py_len t)%nat)) →
  post_api_contact lax_str validate_email gw (PyDict m) log =
    (RequestValidationError, log).
Proof.
  intros Hbad. apply post_api_contact_rejects. intros msg Hb.
  apply request_body_Return in Hb as (m' & [= <-] & Hinit).
  apply ContactMessageIn__init__Return in Hinit
    as (vn & ve & vm & Hvn & _ & Hvm & Hn & _ & Hm).
  apply validate_constr_Return in Hn as (Hsn & ? & ?).
  apply validate_constr_Return in Hm as (Hsm & ? & ?).
  destruct Hbad as [(n & Hn' & ?)|(t & Ht' & ?)].
  - rewrite Hvn in Hn'. injection Hn' as ->. simpl in Hsn.
    injection Hsn as ->. lia.
  - rewrite Hvm in Ht'. injection Ht' as ->. simpl in Hsm.
    injection Hsm as ->. lia.
Qed.

(** X5: a body that is not a JSON object, or one in which name, email or
    message is missing or null, is rejected with the 422 answer and no
    gateway call. *)
Theorem post_api_contact_missing_field body log :
  is_mapping body = false
  ∨ (∃ m k, body = PyDict m ∧ k ∈ ["name"; "email"; "message"]
            ∧ field m k = PyNone) →
  post_api_contact lax_str validate_email gw body log =
    (RequestValidationError, log).
Proof.
  intros Hbad. apply post_api_contact_rejects. intros msg Hb.
  apply request_body_Return in Hb as (m' & -> & Hinit).
  destruct Hbad as [Hbad|(m & k & [= <-] & Hk & Hnone)]; [done|].
  apply ContactMessageIn__init__Return in Hinit
    as (vn & ve & vm & Hvn & Hve & Hvm & Hn & He & Hm).
  apply validate_constr_Return in Hn as (Hsn & _).
  apply validate_constr_Return in Hm as (Hsm & _).
  apply validate_EmailStr_Return in He as (raw & Hse & _).
  unfold field in Hnone.
  repeat (apply elem_of_cons in Hk as [->|Hk]).
  - rewrite Hvn in Hnone. simpl in Hnone. by subst vn.
  - rewrite Hve in Hnone. simpl in Hnone. by subst ve.
  - rewrite Hvm in Hnone. simpl in Hnone. by subst vm.
  - by apply elem_of_nil in Hk.
Qed.

(** ** The mapping of stored documents *)

Lemma validate_str_Raise model v e :
  validate_str lax_str model v = Raise e → e = ValidationError model.
Proof.
  destruct v; simpl; try destruct (lax_str _); try done; by intros [= <-].
Qed.

Lemma validate_optional_str_Raise model v e :
  validate_optional_str lax_str model v = Raise e → e = ValidationError model.
Proof.
  destruct v; simpl; try destruct (lax_str _); try done; by intros [= <-].
Qed.

(** A truthy value that validates as [str] is not the empty string, as long
    as pydantic converts no truthy value to it. *)
Lemma validate_str_truthy model v s :
  (∀ v' s', truthy v' = true → lax_str v' = Some s' → s' ≠ "") →
  truthy v = true → validate_str lax_str model v = Return s → s ≠ "".
Proof.
  intros Hlax Hv. destruct v as [|b|z|s0|l|d|t r]; simpl; try done.
  - destruct (lax_str (PyBool b)) eqn:Hl; [|done]. intros [= <-].
    by apply (Hlax (PyBool b)).
  - destruct (lax_str (PyInt z)) eqn:Hl; [|done]. intros [= <-].
    by apply (Hlax (PyInt z)).
  - intros [= <-]. apply String.eqb_neq. simpl in Hv.
    by destruct (String.eqb s0 "").
  - destruct (lax_str (PyObj t r)) eqn:Hl; [|done]. intros [= <-].
    by apply (Hlax (PyObj t r)).
Qed.

Lemma field_delete m k k' :
  field (delete k m) k' = if decide (k = k') then PyNone else field m k'.
Proof. unfold field. rewrite lookup_delete. by case_decide. Qed.

(** X6: whenever a stored record maps to a [Project], of whatever values it
    is made, the title is not empty, provided pydantic converts no truthy
    value to the empty string. *)
Theorem project_of_doc_title_nonempty d p :
  (∀ v s, truthy v = true → lax_str v = Some s → s ≠ "") →
  project_of_doc lax_str d = Return p → title p ≠ "".
Proof.
  intros Hlax. destruct d as [| | | | |m|]; try done.
  rewrite project_of_doc_dict, Project__init__kwargs.
  unfold mbind, Outcome_bind.
  destruct (validate_str lax_str "Project" _) as [t|] eqn:Ht; [|done].
  destruct (validate_optional_str lax_str "Project" (field m "location"));
    [|done].
  destruct (validate_optional_str lax_str "Project"
              (if truthy (field m "image") then _ else _)); [|done].
  intros [= <-]. cbn [title].
  apply (validate_str_truthy _ _ _ Hlax) in Ht; [done|].
  destruct (truthy (field m "title")) eqn:H1; [done|].
  by destruct (truthy (field m "name")) eqn:H2.
Qed.

(** X7: a title, a name or an image that is falsy (null, the empty string,
    zero, false, an empty list or dictionary) is treated exactly as a missing
    one. *)
Theorem project_of_doc_falsy_as_missing m k :
  k ∈ ["title"; "name"; "image"] →
  truthy (field m k) = false →
  project_of_doc lax_str (PyDict m) =
    project_of_doc lax_str (PyDict (delete k m)).
Proof.
  intros Hk Hfalsy. rewrite !project_of_doc_dict, !field_delete.
  repeat (apply elem_of_cons in Hk as [->|Hk]);
    [| | |by apply elem_of_nil in Hk];
    repeat (case_decide; try done); by rewrite Hfalsy.
Qed.

(** X8: when a record of the list does not map, for whatever reason, the
    listing is the four default projects: the other records are not
    listed. *)
Theorem list_projects_all_or_nothing log docs d e :
  gw_fetch gw log "projects" = Return docs →
  d ∈ docs → project_of_doc lax_str d = Raise e →
  list_projects lax_str gw log =
    (Return default_project_set, (log ++ [CallGet "projects"])%list).
Proof.
  intros Hgw Hin Hd. rewrite (list_projects_Return _ _ _ _ Hgw).
  destruct docs as [|d0 docs]; [done|].
  by destruct (for_docs_Raise lax_str (d0 :: docs) [] d e Hin Hd) as [e' ->].
Qed.

(** X9: a record fails to map in two ways only: it is not a dictionary and
    [get] raises the attribute error, or it is one and the [Project] model
    rejects a value. *)
Theorem project_of_doc_failures d e :
  project_of_doc lax_str d = Raise e →
  (is_mapping d = false ∧ e = AttributeError)
  ∨ (is_mapping d = true ∧ e = ValidationError "Project").
Proof.
  destruct d as [| | | | |m|]; try (intros [= <-]; by left).
  rewrite project_of_doc_dict, Project__init__kwargs. intros He. right.
  split; [done|]. revert He. unfold mbind, mret, Outcome_bind, Outcome_ret.
  destruct (validate_str lax_str "Project" _) eqn:Ht;
    [|intros [= <-]; by eapply validate_str_Raise].
  destruct (validate_optional_str lax_str "Project" (field m "location"))
    eqn:Hl; [|intros [= <-]; by eapply validate_optional_str_Raise].
  destruct (validate_optional_str lax_str "Project"
              (if truthy (field m "image") then _ else _)) eqn:Hi;
    [done|intros [= <-]; by eapply validate_optional_str_Raise].
Qed.

(** X10: whatever the store does, the projects route answers 200 with a
    JSON array that is not empty, after one [get_documents] call on
    "projects" and no other call. *)
Theorem get_api_projects_always_ok log :
  ∃ items,
    get_api_projects lax_str gw log =
      (JSONResponse 200 (PyList items), (log ++ [CallGet "projects"])%list)
    ∧ items ≠ [].
Proof.
  unfold get_api_projects, respond, mbind, M_bind.
  destruct (gw_fetch gw log "projects") as [docs|e] eqn:Hgw.
  - rewrite (list_projects_Return _ _ _ _ Hgw). destruct docs as [|d docs].
    + eexists. split; [reflexivity|done].
    + destruct (for_docs lax_str (d :: docs) []) as [ps|e] eqn:Hloop.
      * eexists. split; [reflexivity|].
        apply for_docs_Return in Hloop as (ps' & Hall & ->).
        by inversion Hall.
      * eexists. split; [reflexivity|done].
  - rewrite (list_projects_Raise _ _ _ _ Hgw). eexists. split; [reflexivity|done].
Qed.

End Coverage.

(** * The diagnostic endpoint *)

Lemma str_take_length n s :
  py_len (str_take n s) = Nat.min n (py_len s).
Proof.
  revert n. induction s as [|c s IH]; intros n; simpl.
  - by destruct n.
  - destruct (is_continuation c) eqn:Hc; simpl; rewrite ?Hc; [by apply IH|].
    destruct n as [|n]; simpl; rewrite ?Hc; [done|]. by rewrite IH.
Qed.

Lemma str_take_prefix n s : ∃ rest, s = str_take n s +:+ rest.
Proof.
  revert n. induction s as [|c s IH]; intros n; simpl.
  - by exists "".
  - destruct (is_continuation c).
    + destruct (IH n) as [rest Hrest]. exists rest.
      change (String c s = String c (str_take n s +:+ rest)). by f_equal.
    + destruct n as [|n]; [by exists (String c s)|].
      destruct (IH n) as [rest Hrest]. exists rest.
      change (String c s = String c (str_take n s +:+ rest)). by f_equal.
Qed.

(** Characters and bytes differ outside ASCII. *)
Example py_len_characters :
  py_len "é" = 1%nat ∧ String.length "é" = 2%nat
  ∧ str_take 2 "éàü" = "éà" ∧ str_take 0 "é" = "".
Proof. repeat split; reflexivity. Qed.

Section DiagnosticProperties.

Variable is_ImportError : PyExc → bool.
Variable is_AttributeError : PyExc → bool.

Lemma getattr_default_readable db dflt :
  name_readable is_AttributeError db = true →
  ∃ v, getattr_default is_AttributeError (db_name db) dflt = Return v.
Proof.
  unfold name_readable, getattr_default.
  destruct (db_name db) as [[v|e]|]; [by eauto| |by eauto].
  intros ->. by eauto.
Qed.

Lemma getattr_default_unreadable db dflt :
  name_readable is_AttributeError db = false →
  ∃ e, db_name db = Some (Raise e)
       ∧ getattr_default is_AttributeError (db_name db) dflt = Raise e.
Proof.
  unfold name_readable, getattr_default.
  destruct (db_name db) as [[v|e]|]; [done| |done].
  intros ->. by eauto.
Qed.

Ltac same_response :=
  f_equal; apply map_eq; intros key; unfold report, initial_response;
  repeat (rewrite lookup_insert; case_decide; [done|]);
  by rewrite ?lookup_singleton.

Lemma test_database_import_raises env e :
  test_database is_ImportError is_AttributeError env (Raise e) =
    Return (report env (outer_except_text is_ImportError e) "Not Connected" []).
Proof.
  unfold test_database, test_database_try, test_database_except,
    outer_except_text, R_then, R_try, R_bind, R_eval, assign.
  destruct (is_ImportError e); same_response.
Qed.

Lemma test_database_db_None env :
  test_database is_ImportError is_AttributeError env (Return None) =
    Return (report env "⚠️  Available but not initialized" "Not Connected" []).
Proof.
  unfold test_database, test_database_try, R_then, R_try, R_bind, R_eval,
    assign.
  same_response.
Qed.

Lemma test_database_name_raises env db e :
  db_name db = Some (Raise e) → is_AttributeError e = false →
  test_database is_ImportError is_AttributeError env (Return (Some db)) =
    Return (report env (outer_except_text is_ImportError e) "Not Connected" []).
Proof.
  intros Hname Hattr.
  unfold test_database, test_database_try, test_database_except,
    outer_except_text, R_then, R_try, R_bind, R_eval, assign, getattr_default.
  rewrite Hname, Hattr. destruct (is_ImportError e); same_response.
Qed.

Lemma test_database_name_readable env db :
  name_readable is_AttributeError db = true →
  test_database is_ImportError is_AttributeError env (Return (Some db)) =
    Return (report env
              match list_collection_names db with
              | Return _ => "✅ Connected & Working"
              | Raise e =>
                  "⚠️  Connected but Error: " +:+ str_take 50 (py_str e)
              end
              "Connected"
              match list_collection_names db with
              | Return names => PyStr <$> take 10 names
              | Raise _ => []
              end).
Proof.
  intros Hname.
  destruct (getattr_default_readable db (PyStr "✅ Connected") Hname)
    as [v Hv].
  unfold test_database, test_database_try, R_then, R_try, R_bind, R_eval,
    assign.
  rewrite Hv. destruct (list_collection_names db); same_response.
Qed.

(** In every case the response is a [report]. *)
Lemma test_database_report env import_db :
  ∃ database status collections,
    test_database is_ImportError is_AttributeError env import_db =
      Return (report env database status collections).
Proof.
  destruct import_db as [[db|]|e].
  - destruct (name_readable is_AttributeError db) eqn:Hname.
    + rewrite (test_database_name_readable env db Hname). by eauto.
    + destruct (getattr_default_unreadable db PyNone Hname) as (e & He & _).
      rewrite (test_database_name_raises env db e He); [by eauto|].
      unfold name_readable in Hname. by rewrite He in Hname.
  - rewrite test_database_db_None. by eauto.
  - rewrite test_database_import_raises. by eauto.
Qed.

Lemma set_or_not_env_set env key :
  set_or_not env key =
    PyStr (if env_set env key then "✅ Set" else "❌ Not Set").
Proof.
  unfold set_or_not, env_set, os_getenv. by destruct (env !! key).
Qed.

(** X11: the diagnostic endpoint never raises and its response always has
    the same six keys, with backend "✅ Running"; database_url and
    database_name say only whether DATABASE_URL and DATABASE_NAME are set to
    a non-empty value: the name read from [db] never reaches the response. *)
Theorem test_database_environment env import_db :
  ∃ response,
    test_database is_ImportError is_AttributeError env import_db = Return response
    ∧ dom response =
        ({[ "backend"; "database"; "database_url"; "database_name";
            "connection_status"; "collections" ]} : gset string)
    ∧ response !! "backend" = Some (PyStr "✅ Running")
    ∧ response !! "database_url" =
        Some (PyStr (if env_set env "DATABASE_URL"
                     then "✅ Set" else "❌ Not Set"))
    ∧ response !! "database_name" =
        Some (PyStr (if env_set env "DATABASE_NAME"
                     then "✅ Set" else "❌ Not Set")).
Proof.
  destruct (test_database_report env import_db) as (D & C & L & ->).
  eexists. split; [reflexivity|]. unfold report.
  rewrite <- !set_or_not_env_set. split; [|by simplify_map_eq].
  rewrite !dom_insert_L, dom_singleton_L. set_solver.
Qed.

(** X12: when [db] is there, its name can be read and the collections are
    listed, the response holds the first ten names, in order, and says
    "Connected" and "✅ Connected & Working". *)
Theorem test_database_collections env db names :
  name_readable is_AttributeError db = true →
  list_collection_names db = Return names →
  ∃ response,
    test_database is_ImportError is_AttributeError env (Return (Some db)) = Return response
    ∧ response !! "collections" = Some (PyList (PyStr <$> take 10 names))
    ∧ (length (take 10 names) ≤ 10)%nat
    ∧ response !! "connection_status" = Some (PyStr "Connected")
    ∧ response !! "database" = Some (PyStr "✅ Connected & Working").
Proof.
  intros Hname Hlist. rewrite (test_database_name_readable env db Hname), Hlist.
  eexists. split; [reflexivity|]. unfold report.
  split; [by simplify_map_eq|]. split; [|by simplify_map_eq].
  rewrite length_take. lia.
Qed.

(** X13: when listing the collections raises, the response still says
    "Connected", lists no collection, and reports the first 50 characters of
    the exception text after "⚠️  Connected but Error: ". *)
Theorem test_database_listing_fails env db e :
  name_readable is_AttributeError db = true →
  list_collection_names db = Raise e →
  ∃ response,
    test_database is_ImportError is_AttributeError env (Return (Some db)) = Return response
    ∧ response !! "database" =
        Some (PyStr ("⚠️  Connected but Error: " +:+ str_take 50 (py_str e)))
    ∧ py_len (str_take 50 (py_str e)) = Nat.min 50 (py_len (py_str e))
    ∧ (∃ rest, py_str e = str_take 50 (py_str e) +:+ rest)
    ∧ response !! "connection_status" = Some (PyStr "Connected")
    ∧ response !! "collections" = Some (PyList []).
Proof.
  intros Hname Hlist. rewrite (test_database_name_readable env db Hname), Hlist.
  eexists. split; [reflexivity|]. unfold report.
  split; [by simplify_map_eq|].
  split; [apply str_take_length|].
  split; [apply str_take_prefix|]. by simplify_map_eq.
Qed.

(** X14: when importing [db] raises, the response says "Not Connected" and
    lists no collection; an import error is reported as the missing database
    module, any other exception by the first 50 characters of its text. *)
Theorem test_database_import_fails env e :
  ∃ response,
    test_database is_ImportError is_AttributeError env (Raise e) = Return response
    ∧ response !! "connection_status" = Some (PyStr "Not Connected")
    ∧ response !! "collections" = Some (PyList [])
    ∧ (is_ImportError e = true →
       response !! "database" =
         Some (PyStr "❌ Database module not found (run enable-database first)"))
    ∧ (is_ImportError e = false →
       response !! "database" =
         Some (PyStr ("❌ Error: " +:+ str_take 50 (py_str e)))).
Proof.
  rewrite test_database_import_raises. eexists. split; [reflexivity|].
  unfold report, outer_except_text.
  split; [by simplify_map_eq|]. split; [by simplify_map_eq|].
  split; intros ->; by simplify_map_eq.
Qed.

(** X15: the response says "Connected" exactly when [db] was imported, is
    not [None] and its name could be read, whether or not the collections
    can then be listed; collections are listed only in that case. *)
Theorem test_database_connected env import_db :
  ∃ response collections,
    test_database is_ImportError is_AttributeError env import_db = Return response
    ∧ response !! "collections" = Some (PyList collections)
    ∧ (response !! "connection_status" = Some (PyStr "Connected")
       ↔ ∃ db, import_db = Return (Some db) ∧ name_readable is_AttributeError db = true)
    ∧ (collections ≠ [] →
       response !! "connection_status" = Some (PyStr "Connected")).
Proof.
  destruct import_db as [[db|]|e].
  - destruct (name_readable is_AttributeError db) eqn:Hname.
    + rewrite (test_database_name_readable env db Hname).
      eexists; eexists. split; [reflexivity|]. unfold report.
      split; [by simplify_map_eq|].
      split; [split; [by eauto | by simplify_map_eq] | by simplify_map_eq].
    + destruct (getattr_default_unreadable db PyNone Hname) as (e & He & _).
      rewrite (test_database_name_raises env db e He);
        [|unfold name_readable in Hname; by rewrite He in Hname].
      eexists; eexists. split; [reflexivity|]. unfold report.
      split; [by simplify_map_eq|]. split; [|done].
      split; [by simplify_map_eq|]. intros (db' & [= <-] & Hr). congruence.
  - rewrite test_database_db_None.
    eexists; eexists. split; [reflexivity|]. unfold report.
    split; [by simplify_map_eq|]. split; [|done].
    split; [by simplify_map_eq | by intros (db' & [=] & _)].
  - rewrite test_database_import_raises.
    eexists; eexists. split; [reflexivity|]. unfold report.
    split; [by simplify_map_eq|]. split; [|done].
    split; [by simplify_map_eq | by intros (db' & [=] & _)].
Qed.

End DiagnosticProperties.

(** * The further properties at concrete inputs *)

Lemma pretty_N_go_nonempty x s : s ≠ "" → pretty_N_go x s ≠ "".
Proof.
  revert s. induction (N.lt_wf_0 x) as [x _ IH]; intros s Hs.
  destruct (decide (x = 0%N)) as [->|Hx]; [by rewrite pretty_N_go_0|].
  rewrite pretty_N_go_step by lia. apply IH; [apply N.div_lt; lia | done].
Qed.

(** What [printing_str] converts is never empty. *)
Lemma printing_str_nonempty v s : printing_str v = Some s → s ≠ "".
Proof.
  destruct v as [|b|z| | | |]; simpl; try done; intros [= <-].
  - by destruct b.
  - destruct z as [|x|x]; [done| |done].
    unfold pretty, pretty_Z, pretty, pretty_positive, pretty, pretty_N.
    case_decide; [done|]. rewrite pretty_N_go_step by lia.
    by apply pretty_N_go_nonempty.
Qed.


(** The undeclared key is ignored, and the name of sixty characters is
    accepted although it takes more than a hundred bytes. *)
Lemma request_body_accepts_witness :
  request_body strict_str sample_email (PyDict contact_fields_extra) =
    Return {| name := sixty_e_acute; email := "ann@example.org";
              message := "Please call me back." |}.
Proof.
  apply (request_body_accepts strict_str sample_email contact_fields_extra
           sixty_e_acute "ann@example.org" "ann@example.org"
           "Please call me back.").
  - reflexivity.
  - reflexivity.
  - reflexivity.
  - vm_compute. lia.
  - vm_compute. lia.
  - reflexivity.
Defined.

(** A message of two characters; a name of a hundred and one. *)
Lemma post_api_contact_length_bounds_witness :
  post_api_contact strict_str sample_email (store_of [] "65f0c1")
    (PyDict (contact_fields "Ann" "ann@example.org" "Hi")) [] =
    (RequestValidationError, [])
  ∧ post_api_contact strict_str sample_email (store_of [] "65f0c1")
      (PyDict (contact_fields hundred_and_one_a "ann@example.org"
                 "Please call me back.")) [] =
      (RequestValidationError, []).
Proof.
  split.
  - apply (post_api_contact_length_bounds strict_str sample_email
             (store_of [] "65f0c1")
             (contact_fields "Ann" "ann@example.org" "Hi") []).
    right. exists "Hi". split; [reflexivity | left; simpl; lia].
  - apply (post_api_contact_length_bounds strict_str sample_email
             (store_of [] "65f0c1")
             (contact_fields hundred_and_one_a "ann@example.org"
                "Please call me back.") []).
    left. exists hundred_and_one_a. split; [reflexivity | vm_compute; lia].
Defined.

Lemma post_api_contact_missing_field_witness :
  post_api_contact strict_str sample_email (store_of [] "65f0c1")
    (PyDict contact_fields_no_email) [] = (RequestValidationError, []).
Proof.
  apply (post_api_contact_missing_field strict_str sample_email
           (store_of [] "65f0c1") (PyDict contact_fields_no_email) []).
  right. exists contact_fields_no_email, "email".
  split; [reflexivity|]. split; [|reflexivity].
  apply list_elem_of_In. simpl. auto.
Defined.

Lemma project_of_doc_title_nonempty_witness :
  ∃ p, project_of_doc printing_str (PyDict fields_number_title) = Return p
       ∧ title p = "7" ∧ title p ≠ "".
Proof.
  exists {| title := "7"; location := None; image := None |}.
  split; [vm_compute; reflexivity|]. split; [reflexivity|].
  apply (project_of_doc_title_nonempty printing_str
           (PyDict fields_number_title)).
  - intros v s _. apply printing_str_nonempty.
  - vm_compute. reflexivity.
Defined.

(** A title that is the number zero counts as no title: the name is used. *)
Lemma project_of_doc_falsy_as_missing_witness :
  project_of_doc strict_str (PyDict fields_zero_title) =
    project_of_doc strict_str (PyDict (delete "title" fields_zero_title)).
Proof.
  apply (project_of_doc_falsy_as_missing strict_str fields_zero_title "title").
  - apply list_elem_of_In. simpl. auto.
  - reflexivity.
Defined.

Lemma list_projects_all_or_nothing_witness :
  list_projects strict_str
    (store_of [doc_Atrium; doc_nested_location] "65f0c1") [] =
    (Return default_project_set, [CallGet "projects"]).
Proof.
  apply (list_projects_all_or_nothing strict_str
           (store_of [doc_Atrium; doc_nested_location] "65f0c1") []
           [doc_Atrium; doc_nested_location] doc_nested_location
           (ValidationError "Project")).
  - reflexivity.
  - apply list_elem_of_In. simpl. auto.
  - vm_compute. reflexivity.
Defined.

Lemma project_of_doc_failures_witness :
  (is_mapping doc_nested_location = false
   ∧ ValidationError "Project" = AttributeError)
  ∨ (is_mapping doc_nested_location = true
     ∧ ValidationError "Project" = ValidationError "Project").
Proof.
  apply (project_of_doc_failures strict_str doc_nested_location).
  vm_compute. reflexivity.
Defined.

(** Twelve collections: ten are shown. *)
Lemma test_database_collections_witness :
  ∃ response,
    test_database named_ImportError named_AttributeError env_url_only (Return (Some db_working)) = Return response
    ∧ response !! "collections" =
        Some (PyList (PyStr <$> take 10 twelve_collections))
    ∧ (length (take 10 twelve_collections) ≤ 10)%nat
    ∧ response !! "connection_status" = Some (PyStr "Connected")
    ∧ response !! "database" = Some (PyStr "✅ Connected & Working").
Proof.
  apply (test_database_collections named_ImportError named_AttributeError
           env_url_only db_working twelve_collections);
    reflexivity.
Defined.

Lemma test_database_listing_fails_witness :
  ∃ response,
    test_database named_ImportError named_AttributeError env_url_only (Return (Some db_refusing)) = Return response
    ∧ response !! "database" =
        Some (PyStr ("⚠️  Connected but Error: "
                     +:+ str_take 50 (py_str not_authorized)))
    ∧ py_len (str_take 50 (py_str not_authorized)) =
        Nat.min 50 (py_len (py_str not_authorized))
    ∧ (∃ rest, py_str not_authorized =
                 str_take 50 (py_str not_authorized) +:+ rest)
    ∧ response !! "connection_status" = Some (PyStr "Connected")
    ∧ response !! "collections" = Some (PyList []).
Proof.
  apply (test_database_listing_fails named_ImportError named_AttributeError
           env_url_only db_refusing not_authorized);
    reflexivity.
Defined.

(** The fifty characters kept of that text take fifty-seven bytes. *)
Example str_take_not_authorized :
  str_take 50 (py_str not_authorized) =
    "accès refusé : le rôle « invité » ne peut pas exéc"
  ∧ py_len (py_str not_authorized) = 70%nat.
Proof. split; reflexivity. Qed.

(** The module has no [db]; the import raises something else. *)
Lemma test_database_import_fails_witness :
  (∃ response,
     test_database named_ImportError named_AttributeError env_url_only
       (Raise (PyError "ImportError" "cannot import name 'db'")) =
       Return response
     ∧ response !! "connection_status" = Some (PyStr "Not Connected")
     ∧ response !! "database" =
         Some (PyStr "❌ Database module not found (run enable-database first)"))
  ∧ (∃ response,
       test_database named_ImportError named_AttributeError env_url_only
         (Raise not_authorized) = Return response
       ∧ response !! "connection_status" = Some (PyStr "Not Connected")
       ∧ response !! "database" =
           Some (PyStr ("❌ Error: " +:+ str_take 50 (py_str not_authorized)))).
Proof.
  split.
  - destruct (test_database_import_fails named_ImportError named_AttributeError
                env_url_only (PyError "ImportError" "cannot import name 'db'"))
      as (response & Hr & Hs & _ & Hd & _).
    exists response. split; [exact Hr|]. split; [exact Hs|].
    apply Hd. reflexivity.
  - destruct (test_database_import_fails named_ImportError named_AttributeError
                env_url_only not_authorized)
      as (response & Hr & Hs & _ & _ & Hd).
    exists response. split; [exact Hr|]. split; [exact Hs|].
    apply Hd. reflexivity.
Defined.
